(** * CSV Language Detector: the data pipeline of [src/App.tsx]

    A shallow embedding of the two event handlers of the [App] component,
    [handleFileUpload] and [handleColumnSelect], and of [getLanguageName],
    together with the fragment of JavaScript they rely on: strings as
    sequences of UTF-16 code units, [String.prototype.trim] and [substring],
    plain objects with [Object.keys], [Array.prototype.every] / [filter] /
    [map], and [Set].  The view [App] returns and the component as a state
    machine driven by uploads and selections come after the handlers. *)

From Stdlib Require Import String Ascii DecimalString.
From Stdlib Require DecimalNat.
From Stdlib Require Import Bool Arith NArith Lia List.
Import ListNotations.
Open Scope list_scope.

(* ================================================================= *)
(** ** JavaScript strings *)

(** A JavaScript string is a finite sequence of UTF-16 code units;
    [length] counts code units and [substring] cuts between them. *)
Definition jsstring : Type := list N.

(** A string literal of the source, one code unit per character. *)
Definition lit (s : string) : jsstring :=
  map N_of_ascii (list_ascii_of_string s).

Definition jsstring_eq_dec : forall a b : jsstring, {a = b} + {a <> b} :=
  list_eq_dec N.eq_dec.

(** [a === b] on two strings. *)
Definition str_eqb (a b : jsstring) : bool :=
  if jsstring_eq_dec a b then true else false.

(** The code units [trim] strips: WhiteSpace and LineTerminator of the
    language definition. *)
Definition isWhiteSpace (c : N) : bool :=
  (  (c =? 0x09) || (c =? 0x0A) || (c =? 0x0B) || (c =? 0x0C) || (c =? 0x0D)
  || (c =? 0x20) || (c =? 0xA0) || (c =? 0x1680)
  || ((0x2000 <=? c) && (c <=? 0x200A))
  || (c =? 0x2028) || (c =? 0x2029) || (c =? 0x202F) || (c =? 0x205F)
  || (c =? 0x3000) || (c =? 0xFEFF))%N.

Fixpoint trimStart (s : jsstring) : jsstring :=
  match s with
  | [] => []
  | c :: s' => if isWhiteSpace c then trimStart s' else s
  end.

Definition trimEnd (s : jsstring) : jsstring := rev (trimStart (rev s)).

(** [s.trim()] *)
Definition trim (s : jsstring) : jsstring := trimEnd (trimStart s).

(** [s.substring(start, end)] for non-negative integer arguments: both are
    clamped to the length and swapped when [start > end]. *)
Definition substring (s : jsstring) (start end_ : nat) : jsstring :=
  let lo := Nat.min (Nat.min start end_) (length s) in
  let hi := Nat.min (Nat.max start end_) (length s) in
  firstn (hi - lo) (skipn lo s).

(** [String(n)] for a non-negative integer: its decimal digits. *)
Definition numberToString (n : nat) : jsstring :=
  lit (NilEmpty.string_of_uint (Nat.to_uint n)).

(** [s] ends with [suffix]. *)
Definition EndsWith (s suffix : jsstring) : Prop :=
  exists prefix, s = prefix ++ suffix.

(* ================================================================= *)
(** ** JavaScript values met by the pipeline *)

(** A cell or a property value: [undefined] (a missing cell), a string, or
    a reference to some other object (such as the array of surplus fields a
    record can carry), known only by its identity. *)
Inductive jsval : Type :=
| VUndef
| VStr (s : jsstring)
| VRef (addr : nat).

Definition jsval_eq_dec : forall a b : jsval, {a = b} + {a <> b}.
Proof.
  decide equality; [apply jsstring_eq_dec | apply Nat.eq_dec].
Defined.

(** [typeof v === 'string'] *)
Definition isString (v : jsval) : bool :=
  match v with VStr _ => true | _ => false end.

(** ToBoolean: [undefined] and the empty string are falsy. *)
Definition truthy (v : jsval) : bool :=
  match v with
  | VUndef => false
  | VStr [] => false
  | VStr (_ :: _) => true
  | VRef _ => true
  end.

(** [a || b] *)
Definition js_or (a b : jsval) : jsval := if truthy a then a else b.

(* ================================================================= *)
(** ** Arrays *)

(** [l.map((x, index) => f x index)], with [index] counted from [start]. *)
Fixpoint map_index {A B : Type} (f : A -> nat -> B) (l : list A) (start : nat)
  : list B :=
  match l with
  | [] => []
  | x :: l' => f x start :: map_index f l' (S start)
  end.

(** [l.every(p)] is [forallb p l]; [l.filter(p)] is [filter p l];
    [l.slice(1)] is [skipn 1 l]; [l[i]] is [nth i l VUndef] on cells. *)

(* ================================================================= *)
(** ** Plain objects *)

(** The own properties of a plain object, in creation order. *)
Definition obj : Type := list (jsstring * jsval).

(** [o[key]] *)
Fixpoint getProp (o : obj) (key : jsstring) : jsval :=
  match o with
  | [] => VUndef
  | (k, v) :: o' => if str_eqb k key then v else getProp o' key
  end.

(** [o[key] = v]: an existing property keeps its place. *)
Fixpoint setProp (o : obj) (key : jsstring) (v : jsval) : obj :=
  match o with
  | [] => [(key, v)]
  | (k, w) :: o' =>
      if str_eqb k key then (k, v) :: o' else (k, w) :: setProp o' key v
  end.

Definition isDigit (c : N) : bool := ((48 <=? c) && (c <=? 57))%N.

Fixpoint digitsValue (acc : N) (s : jsstring) : option N :=
  match s with
  | [] => Some acc
  | c :: s' =>
      if isDigit c then digitsValue (10 * acc + (c - 48))%N s' else None
  end.

(** The array index a property key denotes, if it is a canonical numeric
    string below [2^32 - 1]. *)
Definition arrayIndex (key : jsstring) : option N :=
  match key with
  | [] => None
  | c :: rest =>
      if ((c =? 48)%N && negb (Nat.eqb (length rest) 0)) then None
      else match digitsValue 0 key with
           | Some n => if (n <? 2 ^ 32 - 1)%N then Some n else None
           | None => None
           end
  end.

Fixpoint insertIndex (n : N) (key : jsstring) (l : list (N * jsstring))
  : list (N * jsstring) :=
  match l with
  | [] => [(n, key)]
  | (m, k) :: l' =>
      if (n <? m)%N then (n, key) :: l else (m, k) :: insertIndex n key l'
  end.

Fixpoint indexKeys (keys : list jsstring) : list (N * jsstring) :=
  match keys with
  | [] => []
  | k :: keys' =>
      match arrayIndex k with
      | Some n => insertIndex n k (indexKeys keys')
      | None => indexKeys keys'
      end
  end.

Definition isIndexKey (key : jsstring) : bool :=
  match arrayIndex key with Some _ => true | None => false end.

(** [Object.keys(o)]: array-index keys in ascending numeric order, then the
    other keys in creation order. *)
Definition Object_keys (o : obj) : list jsstring :=
  map snd (indexKeys (map fst o))
  ++ filter (fun k => negb (isIndexKey k)) (map fst o).

(* ================================================================= *)
(** ** Sets *)

(** A [Set] of values, as the list of its members in insertion order. *)
Definition Set_add {A : Type} (eq_dec : forall a b : A, {a = b} + {a <> b})
  (s : list A) (v : A) : list A :=
  if in_dec eq_dec v s then s else s ++ [v].

(** [new Set(l)] *)
Definition Set_of {A : Type} (eq_dec : forall a b : A, {a = b} + {a <> b})
  (l : list A) : list A :=
  fold_left (Set_add eq_dec) l [].

(** [s.size] is [length s]. *)

(* ================================================================= *)
(** ** Completions *)

Inductive JsError : Type := TypeError.

(** The outcome of evaluating code that may throw. *)
Inductive Completion (A : Type) : Type :=
| Normal (a : A)
| Throw (e : JsError).
Arguments Normal {A} a.
Arguments Throw {A} e.

Definition bind {A B : Type} (c : Completion A) (k : A -> Completion B)
  : Completion B :=
  match c with
  | Normal a => k a
  | Throw e => Throw e
  end.

Notation "x <- c ;; k" := (bind c (fun x => k))
  (at level 100, c at next level, right associativity).

(** [l.map((x, index) => f x index)] where the callback may throw. *)
Fixpoint mapM_index {A B : Type} (f : A -> nat -> Completion B) (l : list A)
  (start : nat) : Completion (list B) :=
  match l with
  | [] => Normal []
  | x :: l' =>
      y <- f x start ;;
      ys <- mapM_index f l' (S start) ;;
      Normal (y :: ys)
  end.

(** [Object.keys(v)] on a value that may be [undefined]. *)
Definition Object_keys_of (v : option obj) : Completion (list jsstring) :=
  match v with
  | Some o => Normal (Object_keys o)
  | None => Throw TypeError
  end.

(* ================================================================= *)
(** ** The external parser *)

(** What [Papa.parse] reports: it calls [complete] with [results.data], or
    [error] with an error carrying a [message]. *)
Inductive ParseOutcome (A : Type) : Type :=
| Complete (data : A)
| ParseError (message : jsstring).
Arguments Complete {A} data.
Arguments ParseError {A} message.

(** The record the parser builds for one source row when [header: true]:
    field [j] is stored under the [j]-th header name, a row shorter than the
    header leaves the remaining names unset, and the fields past the header
    are gathered in one array under ["__parsed_extra"]. *)
Fixpoint processRow (fields : list jsstring) (rowSource : list jsstring)
  (addr : nat) (row : obj) : obj :=
  match rowSource with
  | [] => row
  | value :: rest =>
      match fields with
      | field :: fields' =>
          processRow fields' rest addr (setProp row field (VStr value))
      | [] => setProp row (lit "__parsed_extra") (VRef addr)
      end
  end.

(** The array-of-records form of a table ([header: true]): row 0 gives the
    names and is not itself a record. *)
Definition headerRecords (table : list (list jsstring)) : list obj :=
  match table with
  | [] => []
  | fields :: dataRows =>
      map_index (fun rowSource i => processRow fields rowSource i []) dataRows 0
  end.

(** The array-of-arrays form of the same table (no [header] option). *)
Definition arrayRows (table : list (list jsstring)) : list (list jsval) :=
  map (map VStr) table.

(* ================================================================= *)
(** ** Component state *)

Record File : Type := mkFile { name : jsstring; content : list N }.

Record LanguageResult : Type := mkLanguageResult {
  label : jsval;
  language : jsstring;
  text : jsstring
}.

Record Stats : Type := mkStats {
  rows : nat;
  labels : nat;
  languages : list jsstring  (* a [Set<string>] *)
}.

(** The [useState] cells of [App]. *)
Record AppState : Type := mkAppState {
  file : option File;
  columns : list jsval;
  selectedColumn : jsval;
  isProcessing : bool;
  error : option jsstring;
  languageResults : list LanguageResult;
  stats : Stats
}.

(** The state [App] starts in. *)
Definition initialState : AppState :=
  mkAppState None [] (VStr []) false None [] (mkStats 0 0 []).

Definition setFile (v : option File) (st : AppState) : AppState :=
  mkAppState v (columns st) (selectedColumn st) (isProcessing st) (error st)
             (languageResults st) (stats st).

Definition setColumns (v : list jsval) (st : AppState) : AppState :=
  mkAppState (file st) v (selectedColumn st) (isProcessing st) (error st)
             (languageResults st) (stats st).

Definition setSelectedColumn (v : jsval) (st : AppState) : AppState :=
  mkAppState (file st) (columns st) v (isProcessing st) (error st)
             (languageResults st) (stats st).

Definition setIsProcessing (v : bool) (st : AppState) : AppState :=
  mkAppState (file st) (columns st) (selectedColumn st) v (error st)
             (languageResults st) (stats st).

Definition setError (v : option jsstring) (st : AppState) : AppState :=
  mkAppState (file st) (columns st) (selectedColumn st) (isProcessing st) v
             (languageResults st) (stats st).

Definition setLanguageResults (v : list LanguageResult) (st : AppState)
  : AppState :=
  mkAppState (file st) (columns st) (selectedColumn st) (isProcessing st)
             (error st) v (stats st).

Definition setStats (v : Stats) (st : AppState) : AppState :=
  mkAppState (file st) (columns st) (selectedColumn st) (isProcessing st)
             (error st) (languageResults st) v.

(* ================================================================= *)
(** ** The component *)

Section App.

(** [langCodes], the code-to-name table imported from [./langCodes], kept
    as a parameter: [langCodes code] is the name read at [langCodes[code]],
    [None] where that read gives [undefined]. *)
Variable langCodes : jsstring -> option jsstring.

(** [franc.franc], the language classifier. *)
Variable franc : jsstring -> jsstring.

(** [Papa.parse(file, { complete, error })] *)
Variable parseRows : File -> ParseOutcome (list (list jsval)).

(** [Papa.parse(file, { complete, header: true, error })] *)
Variable parseRecords : File -> ParseOutcome (list obj).

(** [langCodes[langCode] || langCode]: the name read from the table when
    it is truthy, the code otherwise. *)
Definition lookupOrCode (langCode : jsstring) : jsstring :=
  match langCodes langCode with
  | Some name => if truthy (VStr name) then name else langCode
  | None => langCode
  end.

Definition getLanguageName (langCode : jsstring) : jsstring :=
  if str_eqb langCode (lit "und") then lit "Undetermined"
  else lookupOrCode langCode.

(* --------------------------------------------------------------- *)
(** *** handleFileUpload *)

(** [firstRow.every(cell => typeof cell === 'string' && cell.trim() !== '')] *)
Definition firstRow_hasHeaders (firstRow : list jsval) : bool :=
  forallb (fun cell =>
             match cell with
             | VStr s => negb (str_eqb (trim s) [])
             | _ => false
             end) firstRow.

(** The [complete] callback of the upload parse. *)
Definition uploadComplete (data : list (list jsval)) (st : AppState)
  : AppState :=
  match data with
  | [] => st
  | firstRow :: _ =>
      if firstRow_hasHeaders firstRow then
        setSelectedColumn (js_or (nth 1 firstRow VUndef) (VStr []))
          (setColumns (skipn 1 firstRow) st)
      else
        setSelectedColumn (VStr (lit "Column 2"))
          (setColumns
             (map_index
                (fun _ index =>
                   VStr (lit "Column " ++ numberToString (index + 1)))
                firstRow 0)
             st)
  end.

(** [handleFileUpload], with [uploadedFile = event.target.files?.[0]]. *)
Definition handleFileUpload (uploadedFile : option File) (st : AppState)
  : AppState :=
  match uploadedFile with
  | None => st
  | Some f =>
      let st1 := setError None (setFile (Some f) st) in
      match parseRows f with
      | Complete data => uploadComplete data st1
      | ParseError message =>
          setError (Some (lit "Error parsing CSV: " ++ message)) st1
      end
  end.

(* --------------------------------------------------------------- *)
(** *** handleColumnSelect *)

(** [Object.keys(data[0]).every(key => key !== '')] *)
Definition keys_hasHeaders (keys : list jsstring) : bool :=
  forallb (fun key => negb (str_eqb key [])) keys.

(** [hasHeaders ? Object.keys(data[0])[0] : '0'], as the property key it is
    used for: a missing first key reads as the key ["undefined"]. *)
Definition labelColumnOf (hasHeaders : bool) (keys : list jsstring)
  : jsstring :=
  if hasHeaders then
    match keys with
    | key :: _ => key
    | [] => lit "undefined"
    end
  else lit "0".

(** The filter of the pipeline:
    [row[column] && typeof row[column] === 'string']. *)
Definition hasText (column : jsstring) (row : obj) : bool :=
  truthy (getProp row column) && isString (getProp row column).

(** [s.substring(0, 50) + (s.length > 50 ? '...' : '')] *)
Definition preview (s : jsstring) : jsstring :=
  substring s 0 50 ++ (if 50 <? length s then lit "..." else []).

(** The callback of [map]: one result for one row.  Reading [substring]
    off a value that is not a string throws. *)
Definition toResult (column : jsstring) (hasHeaders : bool)
  (labelColumn : jsstring) (row : obj) (index : nat)
  : Completion LanguageResult :=
  match getProp row column with
  | VStr s =>
      let detectedLang := franc s in
      Normal
        (mkLanguageResult
           (if hasHeaders then getProp row labelColumn
            else VStr (lit "Row " ++ numberToString (index + 1)))
           (getLanguageName detectedLang)
           (preview s))
  | _ => Throw TypeError
  end.

(** The body of the [complete] callback of the column parse, up to the
    state updates: the results and the statistics it computes. *)
Definition classify (column : jsstring) (data : list obj)
  : Completion (list LanguageResult * Stats) :=
  keys <- Object_keys_of (nth_error data 0) ;;
  let hasHeaders := keys_hasHeaders keys in
  let labelColumn := labelColumnOf hasHeaders keys in
  results <- mapM_index (toResult column hasHeaders labelColumn)
               (filter (hasText column) data) 0 ;;
  Normal
    (results,
     mkStats
       (length data)
       (if hasHeaders
        then length (Set_of jsval_eq_dec
                       (map (fun row => getProp row labelColumn) data))
        else length data)
       (Set_of jsstring_eq_dec (map language results))).

(** The [complete] callback of the column parse: the state it leaves and
    the error it throws, if any. *)
Definition columnComplete (column : jsstring) (data : list obj)
  (st : AppState) : AppState * option JsError :=
  match classify column data with
  | Normal (results, newStats) =>
      (setIsProcessing false
         (setStats newStats (setLanguageResults results st)), None)
  | Throw e => (st, Some e)
  end.

(** [handleColumnSelect(column)] *)
Definition handleColumnSelect (column : jsstring) (st : AppState)
  : AppState * option JsError :=
  let st1 :=
    setError None (setIsProcessing true (setSelectedColumn (VStr column) st))
  in
  match file st with
  | None => (st1, None)
  | Some f =>
      match parseRecords f with
      | Complete data => columnComplete column data st1
      | ParseError message =>
          (setIsProcessing false
             (setError (Some (lit "Error processing CSV: " ++ message)) st1),
           None)
      end
  end.

End App.

(* ================================================================= *)
(** ** Vocabulary of the statements *)

(** [Kept P l k]: [k] holds the members of [l] that satisfy [P], each once
    and in the order of [l]. *)
Inductive Kept {A : Type} (P : A -> Prop) : list A -> list A -> Prop :=
| Kept_nil : Kept P [] []
| Kept_keep (x : A) (l k : list A) :
    P x -> Kept P l k -> Kept P (x :: l) (x :: k)
| Kept_drop (x : A) (l k : list A) :
    ~ P x -> Kept P l k -> Kept P (x :: l) k.

(** The selected cell of [row] is a string that is not empty. *)
Definition TextCell (column : jsstring) (row : obj) : Prop :=
  exists s, getProp row column = VStr s /\ s <> [].

(** The selected cell of [row] is missing, empty, or not a string. *)
Definition NoTextCell (column : jsstring) (row : obj) : Prop :=
  getProp row column = VUndef \/
  getProp row column = VStr [] \/
  exists addr, getProp row column = VRef addr.

(** [r] is the result of [row]: its language and its preview come from the
    selected cell, a string that is not empty. *)
Definition ResultOf (langCodes : jsstring -> option jsstring)
  (franc : jsstring -> jsstring) (column : jsstring) (row : obj)
  (r : LanguageResult) : Prop :=
  exists s,
    getProp row column = VStr s /\ s <> [] /\
    language r = getLanguageName langCodes (franc s) /\
    text r = preview s.

(* ================================================================= *)
(** ** Sample inputs *)

(** A small code-to-name table. *)
Definition sampleLangCodes (code : jsstring) : option jsstring :=
  if str_eqb code (lit "eng") then Some (lit "English")
  else if str_eqb code (lit "fra") then Some (lit "French")
  else None.

(** A toy classifier: texts of fewer than ten code units are undetermined,
    texts starting with [B] are French, the others English. *)
Definition sampleFranc (s : jsstring) : jsstring :=
  if length s <? 10 then lit "und"
  else match s with
       | 66%N :: _ => lit "fra"
       | _ => lit "eng"
       end.

(** The table of the text
    [label,text\nA,Hello world\nB,Bonjour le monde\nC,]. *)
Definition sampleTable : list (list jsstring) :=
  [ [lit "label"; lit "text"];
    [lit "A"; lit "Hello world"];
    [lit "B"; lit "Bonjour le monde"];
    [lit "C"; []] ].

Definition sampleFile : File := mkFile (lit "sample.csv") [].

(** A parser that reads every file as [sampleTable]. *)
Definition sampleParseRows (_ : File) : ParseOutcome (list (list jsval)) :=
  Complete (arrayRows sampleTable).

Definition sampleParseRecords (_ : File) : ParseOutcome (list obj) :=
  Complete (headerRecords sampleTable).

(** A parser that fails on every file. *)
Definition failingParseRows (_ : File) : ParseOutcome (list (list jsval)) :=
  ParseError (lit "unreadable").

Definition failingParseRecords (_ : File) : ParseOutcome (list obj) :=
  ParseError (lit "unreadable").

(** A state that already shows results of an earlier run. *)
Definition shownState : AppState :=
  mkAppState (Some sampleFile) [VStr (lit "text")] (VStr (lit "text")) false
    None
    [mkLanguageResult (VStr (lit "A")) (lit "English") (lit "Hello world")]
    (mkStats 1 1 [lit "English"]).

(** A table whose second header cell is a single space. *)
Definition blankHeaderTable : list (list jsstring) :=
  [ [lit "a"; lit " "]; [lit "x"; lit "y"] ].

(** A first row with an empty first cell: not a header. *)
Definition headerlessRow : list jsval :=
  [VStr []; VStr (lit "x"); VStr (lit "y")].

(** One record whose [text] cell is three dots. *)
Definition dotsData : list obj :=
  [ [(lit "label", VStr (lit "A")); (lit "text", VStr (lit "..."))] ].

(** A table whose second header name is a number. *)
Definition yearTable : list (list jsstring) :=
  [ [lit "name"; lit "2020"]; [lit "x"; lit "p"]; [lit "y"; lit "p"] ].

(** A table with a header row and no data row. *)
Definition headerOnlyTable : list (list jsstring) :=
  [ [lit "label"; lit "text"] ].

(* ================================================================= *)
(** ** The view *)

(** [l.join(sep)] on an array of strings. *)
Fixpoint join (sep : jsstring) (l : list jsstring) : jsstring :=
  match l with
  | [] => []
  | s :: l' =>
      match l' with
      | [] => s
      | _ :: _ => s ++ sep ++ join sep l'
      end
  end.

(** One entry of the results list: the label, the language line and the
    text preview. *)
Record ResultItem : Type := mkResultItem {
  itemLabel : jsval;
  itemLanguage : jsstring;
  itemText : jsstring
}.

(** The results block: the three lines of the summary and the entries. *)
Record ResultsPanel : Type := mkResultsPanel {
  totalRows : nat;
  uniqueLabels : nat;
  detectedLanguages : jsstring;
  items : list ResultItem
}.

(** The [select] element: its value and its options as (value, text). *)
Record ColumnPicker : Type := mkColumnPicker {
  pickerValue : jsval;
  pickerOptions : list (jsval * jsval)
}.

(** What [App] returns, as the blocks it shows and their dynamic content;
    the upload area is always shown. *)
Record View : Type := mkView {
  fileUploaded : option jsstring;
  columnSelect : option ColumnPicker;
  processing : bool;
  alert : option jsstring;
  resultsPanel : option ResultsPanel
}.

(** [result.language === 'Undetermined' ? <span>…</span> : result.language] *)
Definition languageLine (result : LanguageResult) : jsstring :=
  if str_eqb (language result) (lit "Undetermined")
  then lit "Undetermined (text may be too short or ambiguous)"
  else language result.

(** The [return] of [App]. *)
Definition render (st : AppState) : View :=
  mkView
    (match file st with
     | Some f => Some (name f)
     | None => None
     end)
    (if 0 <? length (columns st)
     then Some (mkColumnPicker
                  (selectedColumn st)
                  ((VStr [], VStr (lit "Select a column"))
                     :: map (fun column => (column, column)) (columns st)))
     else None)
    (isProcessing st)
    (match error st with
     | Some e => if truthy (VStr e) then Some e else None
     | None => None
     end)
    (if 0 <? length (languageResults st)
     then Some (mkResultsPanel
                  (rows (stats st))
                  (labels (stats st))
                  (join (lit ", ") (languages (stats st)))
                  (map (fun result =>
                          mkResultItem (label result) (languageLine result)
                            (text result))
                     (languageResults st)))
     else None).

(* ================================================================= *)
(** ** The component as a state machine *)

(** What the user can do: choose a file in the upload area, or pick an
    option of the column [select]. *)
Inductive Event : Type :=
| Upload (uploadedFile : option File)
| SelectColumn (column : jsstring).

Section Machine.

Variable langCodes : jsstring -> option jsstring.
Variable franc : jsstring -> jsstring.
Variable parseRows : File -> ParseOutcome (list (list jsval)).
Variable parseRecords : File -> ParseOutcome (list obj).

(** The state an event leaves, once the parse it starts has called back. *)
Definition handle (e : Event) (st : AppState) : AppState :=
  match e with
  | Upload uploadedFile => handleFileUpload parseRows uploadedFile st
  | SelectColumn column =>
      fst (handleColumnSelect langCodes franc parseRecords column st)
  end.

(** The upload area is always there; the [select] is there only while
    [columns.length > 0].  Any string is let through as the option picked,
    which is more than the options on screen. *)
Definition enabled (e : Event) (st : AppState) : bool :=
  match e with
  | Upload _ => true
  | SelectColumn _ => 0 <? length (columns st)
  end.

(** The states the component can be in. *)
Inductive Reachable : AppState -> Prop :=
| Reachable_init : Reachable initialState
| Reachable_step (e : Event) (st : AppState) :
    Reachable st -> enabled e st = true -> Reachable (handle e st).

End Machine.

(** Records none of which has a [text] cell worth classifying. *)
Definition noTextData : list obj :=
  [ [(lit "label", VStr (lit "A")); (lit "text", VStr [])];
    [(lit "label", VStr (lit "B"))] ].

(** Records read without a usable header: the first key is empty. *)
Definition headerlessData : list obj :=
  [ [([], VStr (lit "A")); (lit "text", VStr (lit "Hello world"))];
    [([], VStr (lit "B")); (lit "text", VStr [])];
    [([], VStr (lit "C")); (lit "text", VStr (lit "Bonjour le monde"))] ].

(** A header row of two cells. *)
Definition headerRow : list jsval := [VStr (lit "label"); VStr (lit "text")].

(** The state after the sample file has been uploaded. *)
Definition uploadedState : AppState :=
  handle sampleLangCodes sampleFranc sampleParseRows sampleParseRecords
    (Upload (Some sampleFile)) initialState.

(* ================================================================= *)
(** ** The table as an object *)

(** The names of the members every plain object inherits from
    [Object.prototype]. *)
Definition ObjectPrototype_keys : list jsstring :=
  [ lit "constructor"; lit "__defineGetter__"; lit "__defineSetter__";
    lit "hasOwnProperty"; lit "__lookupGetter__"; lit "__lookupSetter__";
    lit "isPrototypeOf"; lit "propertyIsEnumerable"; lit "toString";
    lit "valueOf"; lit "__proto__"; lit "toLocaleString" ].

(** The own property [key] of [o], if it has one. *)
Fixpoint ownProperty (o : obj) (key : jsstring) : option jsval :=
  match o with
  | [] => None
  | (k, v) :: o' => if str_eqb k key then Some v else ownProperty o' key
  end.

(** The place of [key] in [names], counted from [addr]. *)
Fixpoint memberAddr (key : jsstring) (names : list jsstring) (addr : nat)
  : option nat :=
  match names with
  | [] => None
  | n :: names' =>
      if str_eqb n key then Some addr else memberAddr key names' (S addr)
  end.

(** What a plain object without an own property [key] gives for [o[key]]:
    the inherited member, a function or an object, or [undefined]. *)
Definition inheritedProp (key : jsstring) : jsval :=
  match memberAddr key ObjectPrototype_keys 0 with
  | Some addr => VRef addr
  | None => VUndef
  end.

(** [o[key]] on an object literal: the own property, else what is
    inherited. *)
Definition readProp (o : obj) (key : jsstring) : jsval :=
  match ownProperty o key with
  | Some v => v
  | None => inheritedProp key
  end.

(** [getLanguageName] with [langCodes] an object literal; what it returns
    need not be a string. *)
Definition getLanguageNameOn (langCodes : obj) (langCode : jsstring) : jsval :=
  if str_eqb langCode (lit "und") then VStr (lit "Undetermined")
  else js_or (readProp langCodes langCode) (VStr langCode).

(** The names [langCodes] gives, for the codes whose read is a string. *)
Definition tableNames (langCodes : obj) (code : jsstring) : option jsstring :=
  match readProp langCodes code with
  | VStr name => Some name
  | _ => None
  end.

(** A table of names: every own property is a string that is not empty. *)
Definition NameTable (langCodes : obj) : Prop :=
  forall key v,
    ownProperty langCodes key = Some v ->
    exists name, v = VStr name /\ name <> [].

(** The small table as an object literal. *)
Definition sampleTableObject : obj :=
  [ (lit "eng", VStr (lit "English")); (lit "fra", VStr (lit "French")) ].

(* ================================================================= *)
(** ** What [complete] receives *)

(** The [results] of a parse that went to its end: [results.data], and
    [results.errors], the errors the parser met on the way. *)
Record ParseResults (A : Type) : Type := mkParseResults {
  resultsData : A;
  resultsErrors : list jsstring
}.
Arguments mkParseResults {A} resultsData resultsErrors.
Arguments resultsData {A} p.
Arguments resultsErrors {A} p.

(** Both [complete] callbacks read [results.data] and nothing else of
    [results]. *)
Definition completeWith {A : Type} (results : ParseResults A)
  : ParseOutcome A :=
  Complete (resultsData results).

(** The results of parsing, in header mode, a text whose last field opens
    a quote and never closes it: the record read, and the error for the
    quote left open. *)
Definition malformedResults : ParseResults (list obj) :=
  mkParseResults
    [ [(lit "label", VStr (lit "B"));
       (lit "text", VStr (lit "Bonjour le monde"))] ]
    [ lit "Quoted field unterminated" ].

(** The results of parsing the same text without the header option. *)
Definition malformedRows : ParseResults (list (list jsval)) :=
  mkParseResults
    [ [VStr (lit "label"); VStr (lit "text")];
      [VStr (lit "B"); VStr (lit "Bonjour le monde")] ]
    [ lit "Quoted field unterminated" ].

(* ================================================================= *)
(** ** Strings: trimming and truncation *)

Lemma str_eqb_true (a b : jsstring) : str_eqb a b = true <-> a = b.
Proof.
  unfold str_eqb. destruct (jsstring_eq_dec a b); split; congruence.
Qed.

Lemma str_eqb_false (a b : jsstring) : str_eqb a b = false <-> a <> b.
Proof.
  unfold str_eqb. destruct (jsstring_eq_dec a b); split; congruence.
Qed.

Lemma trimStart_nil_iff (s : jsstring) :
  trimStart s = [] <-> forallb isWhiteSpace s = true.
Proof.
  induction s as [|c s IH]; simpl.
  - tauto.
  - destruct (isWhiteSpace c); simpl.
    + exact IH.
    + split; discriminate.
Qed.

(** What [trimStart] leaves is empty or starts with a code unit that is not
    white space. *)
Lemma trimStart_head (s : jsstring) :
  match trimStart s with
  | [] => True
  | c :: _ => isWhiteSpace c = false
  end.
Proof.
  induction s as [|c s IH]; simpl; [exact I|].
  destruct (isWhiteSpace c) eqn:E; [exact IH | exact E].
Qed.

Lemma forallb_rev {A : Type} (p : A -> bool) (l : list A) :
  forallb p (rev l) = forallb p l.
Proof.
  induction l as [|x l IH]; simpl; [reflexivity|].
  rewrite forallb_app, IH. simpl. rewrite andb_true_r. apply andb_comm.
Qed.

(** [s.trim() === ''] exactly when [s] holds nothing but white space. *)
Lemma trim_nil_iff (s : jsstring) :
  trim s = [] <-> forallb isWhiteSpace s = true.
Proof.
  unfold trim, trimEnd.
  rewrite <- trimStart_nil_iff.
  split.
  - intros H.
    assert (H' : trimStart (rev (trimStart s)) = []).
    { destruct (trimStart (rev (trimStart s))) as [|c l]; [reflexivity|].
      simpl in H. apply app_eq_nil in H. destruct H; discriminate. }
    apply trimStart_nil_iff in H'. rewrite forallb_rev in H'.
    pose proof (trimStart_head s) as Hh.
    destruct (trimStart s) as [|c t]; [reflexivity|].
    simpl in H'. rewrite Hh in H'. discriminate.
  - intros ->. reflexivity.
Qed.

Lemma substring_0 (s : jsstring) (n : nat) : substring s 0 n = firstn n s.
Proof.
  unfold substring. simpl. rewrite Nat.sub_0_r.
  destruct (Nat.le_ge_cases n (length s)) as [H|H].
  - now rewrite Nat.min_l.
  - rewrite Nat.min_r by exact H.
    rewrite firstn_all. symmetry. now apply firstn_all2.
Qed.

Lemma preview_short (s : jsstring) : length s <= 50 -> preview s = s.
Proof.
  intros H. unfold preview. rewrite substring_0.
  replace (50 <? length s) with false
    by (symmetry; apply Nat.ltb_ge; exact H).
  rewrite app_nil_r. now apply firstn_all2.
Qed.

Lemma preview_long (s : jsstring) :
  50 < length s -> preview s = firstn 50 s ++ lit "...".
Proof.
  intros H. unfold preview. rewrite substring_0.
  replace (50 <? length s) with true
    by (symmetry; apply Nat.ltb_lt; exact H).
  reflexivity.
Qed.

Lemma preview_length (s : jsstring) : length (preview s) <= 53.
Proof.
  destruct (Nat.le_gt_cases (length s) 50) as [H|H].
  - rewrite preview_short by exact H. lia.
  - rewrite preview_long by exact H.
    rewrite length_app, length_firstn.
    change (length (lit "...")) with 3. lia.
Qed.

(* ================================================================= *)
(** ** Sets: members and size *)

Section SetFacts.

Context {A : Type} (eq_dec : forall a b : A, {a = b} + {a <> b}).

Lemma Set_add_In (s : list A) (v x : A) :
  In x (Set_add eq_dec s v) <-> In x s \/ x = v.
Proof.
  unfold Set_add. destruct (in_dec eq_dec v s) as [Hin|Hnin].
  - split; [tauto|]. intros [H | ->]; assumption.
  - rewrite in_app_iff. simpl. intuition congruence.
Qed.

Lemma Set_add_NoDup (s : list A) (v : A) :
  NoDup s -> NoDup (Set_add eq_dec s v).
Proof.
  intros H. unfold Set_add. destruct (in_dec eq_dec v s) as [Hin|Hnin].
  - exact H.
  - apply NoDup_app; [exact H | constructor; [intros [] | constructor] |].
    intros x Hx [<- | []]. contradiction.
Qed.

Lemma fold_Set_add_spec (l acc : list A) :
  NoDup acc ->
  NoDup (fold_left (Set_add eq_dec) l acc) /\
  (forall x, In x (fold_left (Set_add eq_dec) l acc) <-> In x acc \/ In x l).
Proof.
  revert acc. induction l as [|v l IH]; intros acc Hacc; simpl.
  - split; [exact Hacc | intros x; tauto].
  - destruct (IH (Set_add eq_dec acc v) (Set_add_NoDup acc v Hacc))
      as [Hnd Hin].
    split; [exact Hnd|].
    intros x. rewrite Hin, Set_add_In. intuition congruence.
Qed.

Lemma Set_of_NoDup (l : list A) : NoDup (Set_of eq_dec l).
Proof. apply fold_Set_add_spec. constructor. Qed.

Lemma Set_of_In (l : list A) (x : A) : In x (Set_of eq_dec l) <-> In x l.
Proof.
  unfold Set_of.
  destruct (fold_Set_add_spec l [] (NoDup_nil A)) as [_ H].
  rewrite H. simpl. tauto.
Qed.

(** The size of [new Set(l)] is the number of distinct values of [l]:
    the length of any duplicate-free list with the same members. *)
Lemma Set_of_size (l distinct : list A) :
  NoDup distinct ->
  (forall x, In x distinct <-> In x l) ->
  length (Set_of eq_dec l) = length distinct.
Proof.
  intros Hnd Hin. apply Nat.le_antisymm.
  - apply NoDup_incl_length; [apply Set_of_NoDup|].
    intros x Hx. apply Hin. now apply Set_of_In.
  - apply NoDup_incl_length; [exact Hnd|].
    intros x Hx. apply Set_of_In. now apply Hin.
Qed.

End SetFacts.

(* ================================================================= *)
(** ** Lists: filtering *)

Lemma filter_Kept {A : Type} (p : A -> bool) (P : A -> Prop) (l : list A) :
  (forall x, p x = true <-> P x) -> Kept P l (filter p l).
Proof.
  intros Hp. induction l as [|x l IH]; simpl.
  - constructor.
  - destruct (p x) eqn:E.
    + apply Kept_keep; [now apply Hp | exact IH].
    + apply Kept_drop; [|exact IH].
      intros HP. apply Hp in HP. congruence.
Qed.

Lemma filter_length_eq_iff {A : Type} (p : A -> bool) (l : list A) :
  length (filter p l) = length l <-> Forall (fun x => p x = true) l.
Proof.
  induction l as [|x l IH]; simpl.
  - split; [constructor | reflexivity].
  - pose proof (filter_length_le p l) as Hle.
    destruct (p x) eqn:E; simpl.
    + split.
      * intros H. constructor; [exact E|]. apply IH. lia.
      * intros H. inversion H; subst. f_equal. now apply IH.
    + split.
      * intros H. lia.
      * intros H. inversion H; subst. congruence.
Qed.

Lemma Forall2_length_eq {A B : Type} (R : A -> B -> Prop) (l : list A)
  (k : list B) : Forall2 R l k -> length l = length k.
Proof. induction 1; simpl; congruence. Qed.

Lemma Forall2_Forall_r {A B : Type} (R : A -> B -> Prop) (l : list A)
  (k : list B) :
  Forall2 R l k -> Forall (fun y => exists x, In x l /\ R x y) k.
Proof.
  induction 1 as [|x y l k HR _ IH]; constructor.
  - exists x. split; [now left | exact HR].
  - eapply Forall_impl; [|exact IH].
    intros b (a & Ha & Hab). exists a. split; [now right | exact Hab].
Qed.

(* ================================================================= *)
(** ** The classification pass *)

Lemma hasText_iff (column : jsstring) (row : obj) :
  hasText column row = true <-> TextCell column row.
Proof.
  unfold hasText, TextCell.
  destruct (getProp row column) as [|[|c s]|addr]; simpl; split;
    try discriminate.
  - intros (s & H & _). discriminate.
  - intros (s & H & Hs). injection H as <-. now contradiction Hs.
  - intros _. exists (c :: s). split; [reflexivity | discriminate].
  - reflexivity.
  - intros (s & H & _). discriminate.
Qed.

Lemma NoTextCell_iff (column : jsstring) (row : obj) :
  NoTextCell column row <-> ~ TextCell column row.
Proof.
  unfold NoTextCell, TextCell.
  destruct (getProp row column) as [|[|c s]|addr]; split.
  - intros _ (s & H & _). discriminate.
  - intros _. now left.
  - intros _ (s & H & Hs). injection H as <-. now contradiction Hs.
  - intros _. right. now left.
  - intros [H | [H | (a & H)]]; discriminate.
  - intros H. exfalso. apply H. exists (c :: s).
    split; [reflexivity | discriminate].
  - intros _ (s & H & _). discriminate.
  - intros _. right. right. now exists addr.
Qed.

Section Pipeline.

Variable langCodes : jsstring -> option jsstring.
Variable franc : jsstring -> jsstring.
Variable parseRows : File -> ParseOutcome (list (list jsval)).
Variable parseRecords : File -> ParseOutcome (list obj).

(** After the filter, the callback of [map] never throws, and it yields one
    result per row, in order. *)
Lemma mapM_toResult (column : jsstring) (hasHeaders : bool)
  (labelColumn : jsstring) (kept : list obj) :
  Forall (fun row => hasText column row = true) kept ->
  forall start,
  exists results,
    mapM_index (toResult langCodes franc column hasHeaders labelColumn)
      kept start = Normal results /\
    Forall2 (ResultOf langCodes franc column) kept results.
Proof.
  induction 1 as [|row kept Hrow _ IH]; intros start; simpl.
  - exists []. split; [reflexivity | constructor].
  - apply hasText_iff in Hrow. destruct Hrow as (s & Hs & Hne).
    destruct (IH (S start)) as (results & Hmap & Hall).
    unfold toResult at 1. rewrite Hs. simpl. rewrite Hmap. simpl.
    eexists. split; [reflexivity|].
    constructor; [|exact Hall].
    exists s. simpl. repeat split; assumption.
Qed.

(** On a table with at least one record the pass completes; its results
    follow the filtered rows and its statistics are as computed. *)
Lemma classify_Normal (column : jsstring) (data : list obj) :
  data <> [] ->
  exists keys results,
    Object_keys_of (nth_error data 0) = Normal keys /\
    Forall2 (ResultOf langCodes franc column)
      (filter (hasText column) data) results /\
    classify langCodes franc column data =
    Normal
      (results,
       mkStats
         (length data)
         (if keys_hasHeaders keys
          then length
                 (Set_of jsval_eq_dec
                    (map (fun row =>
                            getProp row
                              (labelColumnOf (keys_hasHeaders keys) keys))
                       data))
          else length data)
         (Set_of jsstring_eq_dec (map language results))).
Proof.
  intros Hne. destruct data as [|first rest]; [congruence|].
  set (data := first :: rest).
  exists (Object_keys first).
  destruct (mapM_toResult column
              (keys_hasHeaders (Object_keys first))
              (labelColumnOf (keys_hasHeaders (Object_keys first))
                 (Object_keys first))
              (filter (hasText column) data)) with (start := 0)
    as (results & Hmap & Hall).
  { apply Forall_forall. intros row Hin. now apply filter_In in Hin. }
  exists results. split; [reflexivity|]. split; [exact Hall|].
  unfold classify. change (nth_error data 0) with (Some first).
  cbn [Object_keys_of bind]. rewrite Hmap. reflexivity.
Qed.

(* --------------------------------------------------------------- *)
(** *** getLanguageName *)

(** [getLanguageName] over a read of names: ["und"] yields
    ["Undetermined"] whatever the table holds; any other code that is read
    as a non-empty name yields that name; and any other code that is read
    as [undefined] or as the empty name yields the code itself. *)
Lemma getLanguageName_contract (code : jsstring) :
  getLanguageName langCodes (lit "und") = lit "Undetermined" /\
  (code <> lit "und" ->
   forall name, langCodes code = Some name -> name <> [] ->
                getLanguageName langCodes code = name) /\
  (code <> lit "und" ->
   langCodes code = None \/ langCodes code = Some [] ->
   getLanguageName langCodes code = code).
Proof.
  split; [reflexivity|].
  unfold getLanguageName, lookupOrCode.
  split; intros Hund; apply str_eqb_false in Hund; rewrite Hund.
  - intros name -> Hname. destruct name; [congruence | reflexivity].
  - intros [-> | ->]; reflexivity.
Qed.

(* --------------------------------------------------------------- *)
(** *** Header detection *)

(** The rule of the upload pass: row 0 is a header exactly when every
    cell is a string that still holds something after trimming. *)
Lemma firstRow_hasHeaders_iff (firstRow : list jsval) :
  firstRow_hasHeaders firstRow = true <->
  Forall (fun cell => exists s, cell = VStr s /\ trim s <> []) firstRow.
Proof.
  unfold firstRow_hasHeaders. rewrite forallb_forall, Forall_forall.
  split; intros H cell Hin; specialize (H cell Hin).
  - destruct cell as [|s|addr]; try discriminate.
    exists s. split; [reflexivity|].
    apply str_eqb_false. now apply negb_true_iff.
  - destruct H as (s & -> & Hs).
    apply negb_true_iff. now apply str_eqb_false.
Qed.

(** The rule of the column pass: every key of the first record differs
    from the empty string; keys are not trimmed. *)
Lemma keys_hasHeaders_iff (keys : list jsstring) :
  keys_hasHeaders keys = true <-> Forall (fun key => key <> []) keys.
Proof.
  unfold keys_hasHeaders. rewrite forallb_forall, Forall_forall.
  split; intros H key Hin; specialize (H key Hin).
  - apply str_eqb_false. now apply negb_true_iff.
  - apply negb_true_iff. now apply str_eqb_false.
Qed.

(** C1, at the table [a, ] / [x,y] whose second header cell is one space:
    the upload pass judges row 0 not a header, while the column pass,
    reading the keys [a] and [ ] off the first record, judges that the
    table has one. *)
Theorem header_redetection_disagrees :
  firstRow_hasHeaders (nth 0 (arrayRows blankHeaderTable) []) = false /\
  Object_keys_of (nth_error (headerRecords blankHeaderTable) 0)
  = Normal [lit "a"; lit " "] /\
  keys_hasHeaders [lit "a"; lit " "] = true.
Proof. repeat split. Qed.

(* --------------------------------------------------------------- *)
(** *** Schema inference at upload *)

(** The columns offered for a headerless first row: one synthetic name per
    source column, the first column included. *)
Lemma headerless_columns (firstRow : list jsval) (rest : list (list jsval))
  (st : AppState) :
  firstRow_hasHeaders firstRow = false ->
  columns (uploadComplete (firstRow :: rest) st)
  = map_index
      (fun _ index => VStr (lit "Column " ++ numberToString (index + 1)))
      firstRow 0 /\
  selectedColumn (uploadComplete (firstRow :: rest) st)
  = VStr (lit "Column 2").
Proof. intros H. unfold uploadComplete. rewrite H. split; reflexivity. Qed.

(** C2, at a first row of three cells whose first cell is empty: the row
    is not a header, the default selection is ["Column 2"], and the
    columns offered are ["Column 1"], ["Column 2"], ["Column 3"], so the
    list starts at the label column. *)
Theorem headerless_columns_start_at_column_1 (st : AppState) :
  firstRow_hasHeaders headerlessRow = false /\
  columns (uploadComplete [headerlessRow] st)
  = [VStr (lit "Column 1"); VStr (lit "Column 2"); VStr (lit "Column 3")] /\
  selectedColumn (uploadComplete [headerlessRow] st)
  = VStr (lit "Column 2").
Proof. repeat split. Qed.

(* --------------------------------------------------------------- *)
(** *** Results of the classification pass *)

Lemma preview_EndsWith (s : jsstring) :
  EndsWith (preview s) (lit "...") <->
  50 < length s \/ EndsWith s (lit "...").
Proof.
  destruct (Nat.le_gt_cases (length s) 50) as [H|H].
  - rewrite preview_short by exact H. split; [now right|].
    intros [Hlt | Hend]; [lia | exact Hend].
  - rewrite preview_long by exact H. split; [now left|].
    intros _. now exists (firstn 50 s).
Qed.

(** C3, as amended.  On a table with at least one record the pass
    completes, and the text of every result comes from the selected cell
    of a data row: it is the first 50 code units of the cell, followed by
    ["..."] exactly when the cell is longer than 50; it has at most 53
    code units; and it ends in ["..."] if and only if the cell is longer
    than 50 or the cell itself ends in ["..."]. *)
Theorem preview_truncation_law (column : jsstring) (data : list obj) :
  data <> [] ->
  exists results st,
    classify langCodes franc column data = Normal (results, st) /\
    Forall
      (fun r =>
         exists row s,
           In row data /\ getProp row column = VStr s /\
           text r
           = firstn 50 s ++ (if 50 <? length s then lit "..." else []) /\
           length (text r) <= 53 /\
           (EndsWith (text r) (lit "...") <->
            50 < length s \/ EndsWith s (lit "...")))
      results.
Proof.
  intros Hne.
  destruct (classify_Normal column data Hne)
    as (keys & results & _ & Hall & Hcl).
  eexists results, _. split; [exact Hcl|].
  apply Forall2_Forall_r in Hall.
  eapply Forall_impl; [|exact Hall].
  intros r (row & Hin & s & Hs & _ & _ & Htext).
  exists row, s. apply filter_In in Hin.
  split; [apply Hin|]. split; [exact Hs|]. rewrite Htext.
  split; [unfold preview; now rewrite substring_0|].
  split; [apply preview_length | apply preview_EndsWith].
Qed.


(* --------------------------------------------------------------- *)
(** *** Statistics of the classification pass *)


(** The count of unique labels, relative to the column the pass resolves.
    On a table with at least one record the pass completes, and with
    [hasHeaders] and [labelColumn] as the pass resolves them from the keys
    of the first record: when [hasHeaders] holds, [labels] is the number
    of distinct values the records have in [labelColumn] (the length of
    any duplicate-free list of exactly those values); otherwise [labels]
    equals [rows]. *)
Lemma labels_statistic (column : jsstring) (data : list obj) :
  data <> [] ->
  exists keys results st,
    Object_keys_of (nth_error data 0) = Normal keys /\
    classify langCodes franc column data = Normal (results, st) /\
    (keys_hasHeaders keys = true ->
     forall distinct,
       NoDup distinct ->
       (forall v, In v distinct <->
                  exists row, In row data /\
                              getProp row (labelColumnOf true keys) = v) ->
       labels st = length distinct) /\
    (keys_hasHeaders keys = false -> labels st = rows st).
Proof.
  intros Hne.
  destruct (classify_Normal column data Hne)
    as (keys & results & Hkeys & _ & Hcl).
  eexists keys, results, _. split; [exact Hkeys|]. split; [exact Hcl|].
  cbn [labels rows]. split; intros Hh; rewrite Hh; [|reflexivity].
  intros distinct Hnd Hin. apply Set_of_size; [exact Hnd|].
  intros v. rewrite Hin, in_map_iff.
  split; intros (row & H1 & H2); exists row; tauto.
Qed.

(** The label column is the first key [Object.keys] lists for the first
    record, which is not always the first header name: a header name that
    is an array index is listed before the others. *)
Remark labelColumn_numeric_header :
  Object_keys_of (nth_error (headerRecords yearTable) 0)
  = Normal [lit "2020"; lit "name"] /\
  labelColumnOf true [lit "2020"; lit "name"] = lit "2020".
Proof. split; reflexivity. Qed.

(* --------------------------------------------------------------- *)
(** *** The handlers *)


(** C10.  Two runs of the column pass on the same file and column,
    started from any two states, end alike: both throw or neither does,
    and when they do not throw they leave the same results and the same
    statistics; on a table with at least one record they do not throw. *)
Theorem column_select_deterministic (column : jsstring) (f : File)
  (data : list obj) (st1 st2 : AppState) :
  file st1 = Some f ->
  file st2 = Some f ->
  parseRecords f = Complete data ->
  snd (handleColumnSelect langCodes franc parseRecords column st1)
  = snd (handleColumnSelect langCodes franc parseRecords column st2) /\
  (snd (handleColumnSelect langCodes franc parseRecords column st1) = None ->
   languageResults
     (fst (handleColumnSelect langCodes franc parseRecords column st1))
   = languageResults
       (fst (handleColumnSelect langCodes franc parseRecords column st2)) /\
   stats (fst (handleColumnSelect langCodes franc parseRecords column st1))
   = stats
       (fst (handleColumnSelect langCodes franc parseRecords column st2))) /\
  (data <> [] ->
   snd (handleColumnSelect langCodes franc parseRecords column st1) = None).
Proof.
  intros H1 H2 Hparse. unfold handleColumnSelect.
  rewrite H1, H2, Hparse. unfold columnComplete.
  split; [|split].
  - destruct (classify langCodes franc column data) as [[results s]|e];
      reflexivity.
  - destruct (classify langCodes franc column data) as [[results s]|e];
      [intros _; split; reflexivity | discriminate].
  - intros Hne.
    destruct (classify_Normal column data Hne) as (keys & results & _ & _ & ->).
    reflexivity.
Qed.

(** C9, at the table with no row and at the table with a header row only:
    the upload pass leaves the state as it was on the first and offers the
    column [text] on the second, and the column pass, which reads the keys
    of a first record that does not exist, throws a [TypeError] on both
    before it updates anything. *)
Theorem empty_table_throws (column : jsstring) (st : AppState) :
  uploadComplete (arrayRows []) st = st /\
  columnComplete langCodes franc column (headerRecords []) st
  = (st, Some TypeError) /\
  columns (uploadComplete (arrayRows headerOnlyTable) st)
  = [VStr (lit "text")] /\
  columnComplete langCodes franc column (headerRecords headerOnlyTable) st
  = (st, Some TypeError).
Proof. repeat split. Qed.

End Pipeline.

(* ================================================================= *)
(** ** The statements at the sample inputs *)

Lemma sample_records_nonempty : headerRecords sampleTable <> [].
Proof. discriminate. Defined.

(** The claim C3 as first stated fails for a short cell that ends in three
    dots: the text of its result ends in ["..."] although the cell is not
    longer than 50. *)
Lemma short_cell_ending_in_dots :
  classify sampleLangCodes sampleFranc (lit "text") dotsData
  = Normal
      ([mkLanguageResult (VStr (lit "A")) (lit "Undetermined") (lit "...")],
       mkStats 1 1 [lit "Undetermined"]) /\
  EndsWith (lit "...") (lit "...") /\
  ~ 50 < length (lit "...").
Proof.
  split; [reflexivity|]. split; [now exists [] |].
  apply Nat.nlt_ge. apply Nat.leb_le. reflexivity.
Qed.

Lemma preview_truncation_law_sample :
  exists results st,
    classify sampleLangCodes sampleFranc (lit "text")
      (headerRecords sampleTable) = Normal (results, st) /\
    Forall (fun r => length (text r) <= 53) results.
Proof.
  destruct (preview_truncation_law sampleLangCodes sampleFranc (lit "text")
              (headerRecords sampleTable) sample_records_nonempty)
    as (results & st & Hcl & Hall).
  exists results, st. split; [exact Hcl|].
  eapply Forall_impl; [|exact Hall].
  intros r (row & s & _ & _ & _ & Hlen & _). exact Hlen.
Defined.



Lemma labels_statistic_sample :
  exists keys results st,
    Object_keys_of (nth_error (headerRecords sampleTable) 0) = Normal keys /\
    classify sampleLangCodes sampleFranc (lit "text")
      (headerRecords sampleTable) = Normal (results, st) /\
    (keys_hasHeaders keys = true ->
     forall distinct,
       NoDup distinct ->
       (forall v, In v distinct <->
                  exists row, In row (headerRecords sampleTable) /\
                              getProp row (labelColumnOf true keys) = v) ->
       labels st = length distinct) /\
    (keys_hasHeaders keys = false -> labels st = rows st).
Proof.
  exact (labels_statistic sampleLangCodes sampleFranc (lit "text")
           (headerRecords sampleTable) sample_records_nonempty).
Defined.


Lemma column_select_deterministic_sample :
  languageResults
    (fst (handleColumnSelect sampleLangCodes sampleFranc sampleParseRecords
            (lit "text") shownState))
  = languageResults
      (fst (handleColumnSelect sampleLangCodes sampleFranc sampleParseRecords
              (lit "text") (setFile (Some sampleFile) initialState))).
Proof.
  destruct (column_select_deterministic sampleLangCodes sampleFranc
              sampleParseRecords (lit "text") sampleFile
              (headerRecords sampleTable) shownState
              (setFile (Some sampleFile) initialState)
              eq_refl eq_refl eq_refl)
    as (_ & Hsame & Hok).
  apply Hsame. apply Hok. exact sample_records_nonempty.
Defined.

(* ================================================================= *)
(** ** Further facts on strings, arrays and sets *)

Lemma forallb_false_Exists {A : Type} (p : A -> bool) (l : list A) :
  forallb p l <> true <-> Exists (fun x => p x = false) l.
Proof.
  induction l as [|x l IH]; simpl.
  - split; [congruence | intros H; inversion H].
  - destruct (p x) eqn:E; simpl.
    + rewrite IH. split; [now right|].
      intros H. inversion H; subst; [congruence | assumption].
    + split; [now left | discriminate].
Qed.

Lemma trim_not_nil (s : jsstring) : trim s <> [] -> s <> [].
Proof. intros H ->. now apply H. Qed.

Lemma lit_inj (a b : string) : lit a = lit b -> a = b.
Proof.
  unfold lit. intros H.
  rewrite <- (string_of_list_ascii_of_string a).
  rewrite <- (string_of_list_ascii_of_string b).
  f_equal. revert H.
  generalize (list_ascii_of_string a) (list_ascii_of_string b).
  induction l as [|x l IH]; intros [|y k]; simpl; try discriminate.
  - reflexivity.
  - intros H. injection H as Hxy Hlk. f_equal; [|now apply IH].
    rewrite <- (ascii_N_embedding x), <- (ascii_N_embedding y).
    now rewrite Hxy.
Qed.

(** Distinct numbers have distinct decimal forms. *)
Lemma numberToString_inj (n m : nat) :
  numberToString n = numberToString m -> n = m.
Proof.
  unfold numberToString. intros H. apply lit_inj in H.
  assert (Hu : Nat.to_uint n = Nat.to_uint m).
  { pose proof (NilEmpty.usu (Nat.to_uint n)) as Hn.
    pose proof (NilEmpty.usu (Nat.to_uint m)) as Hm.
    rewrite H in Hn. congruence. }
  rewrite <- (DecimalNat.Unsigned.of_to n), <- (DecimalNat.Unsigned.of_to m).
  now rewrite Hu.
Qed.

Lemma map_index_const {A B : Type} (g : nat -> B) (l : list A) (start : nat) :
  map_index (fun _ index => g index) l start = map g (seq start (length l)).
Proof.
  revert start. induction l as [|x l IH]; intros start; simpl.
  - reflexivity.
  - now rewrite IH.
Qed.

Lemma Set_of_length_le {A : Type}
  (eq_dec : forall a b : A, {a = b} + {a <> b}) (l : list A) :
  length (Set_of eq_dec l) <= length l.
Proof.
  apply NoDup_incl_length; [apply Set_of_NoDup|].
  intros x. apply Set_of_In.
Qed.

Lemma Set_of_nil_iff {A : Type}
  (eq_dec : forall a b : A, {a = b} + {a <> b}) (l : list A) :
  Set_of eq_dec l = [] <-> l = [].
Proof.
  split; [|intros ->; reflexivity].
  intros H. destruct l as [|x l]; [reflexivity|].
  assert (Hin : In x (Set_of eq_dec (x :: l))) by (apply Set_of_In; now left).
  rewrite H in Hin. destruct Hin.
Qed.

Lemma NoDup_map_injective {A B : Type} (g : A -> B) (l : list A) :
  (forall a b, g a = g b -> a = b) -> NoDup l -> NoDup (map g l).
Proof.
  intros Hg. induction 1 as [|x l Hx _ IH]; simpl; constructor.
  - rewrite in_map_iff. intros (y & Hy & Hin). apply Hg in Hy. now subst.
  - exact IH.
Qed.

(* ================================================================= *)
(** ** The upload pass *)

(** X1.  At upload, row 0 is judged a header exactly when every cell is a
    string that holds at least one code unit that is not white space. *)
Theorem upload_header_iff_no_blank_cell (firstRow : list jsval) :
  firstRow_hasHeaders firstRow = true <->
  Forall (fun cell =>
            exists s, cell = VStr s /\
                      Exists (fun c => isWhiteSpace c = false) s)
    firstRow.
Proof.
  rewrite firstRow_hasHeaders_iff. split; apply Forall_impl;
    intros cell (s & Hs & H); exists s; (split; [exact Hs|]).
  - apply forallb_false_Exists. now rewrite <- trim_nil_iff.
  - rewrite trim_nil_iff. now apply forallb_false_Exists.
Qed.

(** X2.  When row 0 is judged a header, the columns offered are its cells
    after the first, in order, so one fewer than the row has; each is a
    string that is not blank; and the default selection is the first of
    them, or the empty string when the row has a single cell. *)
Theorem upload_header_schema (firstRow : list jsval)
  (rest : list (list jsval)) (st : AppState) :
  firstRow_hasHeaders firstRow = true ->
  columns (uploadComplete (firstRow :: rest) st) = skipn 1 firstRow /\
  length (columns (uploadComplete (firstRow :: rest) st))
  = length firstRow - 1 /\
  Forall (fun column => exists s, column = VStr s /\ trim s <> [])
    (columns (uploadComplete (firstRow :: rest) st)) /\
  selectedColumn (uploadComplete (firstRow :: rest) st)
  = match columns (uploadComplete (firstRow :: rest) st) with
    | column :: _ => column
    | [] => VStr []
    end.
Proof.
  intros H. unfold uploadComplete. rewrite H. cbn [columns selectedColumn
    setSelectedColumn setColumns].
  apply firstRow_hasHeaders_iff in H.
  split; [reflexivity|]. split; [apply length_skipn|].
  split.
  - destruct firstRow as [|c0 cells]; [constructor|].
    now inversion H.
  - destruct firstRow as [|c0 [|c1 cells]]; try reflexivity.
    inversion H as [|? ? _ H1]; subst. inversion H1 as [|? ? Hc1 _]; subst.
    destruct Hc1 as (s & -> & Hs). apply trim_not_nil in Hs.
    cbn. unfold js_or. destruct s; [congruence | reflexivity].
Qed.

(** X3.  When row 0 is not judged a header, one synthetic name is offered
    per cell of the row, the cell at index [i] as ["Column i+1"]; the names
    are pairwise distinct; and the default selection ["Column 2"] is among
    them exactly when the row has at least two cells. *)
Theorem upload_headerless_schema (firstRow : list jsval)
  (rest : list (list jsval)) (st : AppState) :
  firstRow_hasHeaders firstRow = false ->
  length (columns (uploadComplete (firstRow :: rest) st)) = length firstRow /\
  (forall i, i < length firstRow ->
             nth i (columns (uploadComplete (firstRow :: rest) st)) VUndef
             = VStr (lit "Column " ++ numberToString (i + 1))) /\
  NoDup (columns (uploadComplete (firstRow :: rest) st)) /\
  (In (selectedColumn (uploadComplete (firstRow :: rest) st))
      (columns (uploadComplete (firstRow :: rest) st))
   <-> 2 <= length firstRow).
Proof.
  intros H. unfold uploadComplete. rewrite H. cbn [columns selectedColumn
    setSelectedColumn setColumns].
  rewrite map_index_const.
  set (g := fun index => VStr (lit "Column " ++ numberToString (index + 1))).
  assert (Hg : forall a b, g a = g b -> a = b).
  { intros a b Hab. unfold g in Hab. injection Hab as Hab.
    apply numberToString_inj in Hab. lia. }
  split; [now rewrite length_map, length_seq|].
  split; [|split].
  - intros i Hi.
    rewrite nth_indep with (d' := g 0) by now rewrite length_map, length_seq.
    rewrite map_nth, seq_nth by exact Hi. reflexivity.
  - apply NoDup_map_injective; [exact Hg | apply seq_NoDup].
  - change (VStr (lit "Column 2")) with (g 1). rewrite in_map_iff. split.
    + intros (i & Hgi & Hin). apply Hg in Hgi. subst i.
      apply in_seq in Hin. lia.
    + intros Hlen. exists 1. split; [reflexivity|]. apply in_seq. lia.
Qed.

Section Coverage.

Variable langCodes : jsstring -> option jsstring.
Variable franc : jsstring -> jsstring.
Variable parseRows : File -> ParseOutcome (list (list jsval)).
Variable parseRecords : File -> ParseOutcome (list obj).

(** [handleFileUpload] writes neither the results, nor the statistics, nor
    the processing flag. *)
Lemma handleFileUpload_frame (uploadedFile : option File) (st : AppState) :
  languageResults (handleFileUpload parseRows uploadedFile st)
  = languageResults st /\
  stats (handleFileUpload parseRows uploadedFile st) = stats st /\
  isProcessing (handleFileUpload parseRows uploadedFile st)
  = isProcessing st.
Proof.
  unfold handleFileUpload. destruct uploadedFile as [f|]; [|repeat split].
  destruct (parseRows f) as [data|message]; [|repeat split].
  unfold uploadComplete. destruct data as [|firstRow rest]; [repeat split|].
  destruct (firstRow_hasHeaders firstRow); repeat split.
Qed.

(** X4.  Whatever file is chosen and whatever the parse reports,
    [handleFileUpload] leaves the results, the statistics and the
    processing flag of the earlier run as they were, so the results of the
    earlier file stay on record after a new upload. *)
Theorem upload_keeps_results (uploadedFile : option File) (st : AppState) :
  languageResults (handleFileUpload parseRows uploadedFile st)
  = languageResults st /\
  stats (handleFileUpload parseRows uploadedFile st) = stats st /\
  isProcessing (handleFileUpload parseRows uploadedFile st)
  = isProcessing st.
Proof. exact (handleFileUpload_frame uploadedFile st). Qed.

(** X5.  When the upload parse completes, the file is recorded and the
    error cleared.  A table without rows leaves the columns and the
    selection of the earlier upload in place; a table with rows replaces
    both by values that do not depend on the earlier state. *)
Theorem upload_replaces_schema (f : File) (data : list (list jsval))
  (st1 st2 : AppState) :
  parseRows f = Complete data ->
  file (handleFileUpload parseRows (Some f) st1) = Some f /\
  error (handleFileUpload parseRows (Some f) st1) = None /\
  (data = [] ->
   columns (handleFileUpload parseRows (Some f) st1) = columns st1 /\
   selectedColumn (handleFileUpload parseRows (Some f) st1)
   = selectedColumn st1) /\
  (data <> [] ->
   columns (handleFileUpload parseRows (Some f) st1)
   = columns (handleFileUpload parseRows (Some f) st2) /\
   selectedColumn (handleFileUpload parseRows (Some f) st1)
   = selectedColumn (handleFileUpload parseRows (Some f) st2)).
Proof.
  intros Hparse. unfold handleFileUpload. rewrite Hparse.
  unfold uploadComplete. destruct data as [|firstRow rest].
  - split; [reflexivity|]. split; [reflexivity|].
    split; [intros _; split; reflexivity | intros Hne; now contradiction Hne].
  - split; [now destruct (firstRow_hasHeaders firstRow)|].
    split; [now destruct (firstRow_hasHeaders firstRow)|].
    split; [discriminate|].
    intros _. destruct (firstRow_hasHeaders firstRow); split; reflexivity.
Qed.

(* --------------------------------------------------------------- *)
(** *** The classification pass, continued *)

(** What a completed pass has computed. *)
Lemma classify_inv (column : jsstring) (data : list obj)
  (results : list LanguageResult) (st : Stats) :
  classify langCodes franc column data = Normal (results, st) ->
  exists keys,
    Object_keys_of (nth_error data 0) = Normal keys /\
    mapM_index
      (toResult langCodes franc column (keys_hasHeaders keys)
         (labelColumnOf (keys_hasHeaders keys) keys))
      (filter (hasText column) data) 0 = Normal results /\
    st = mkStats
           (length data)
           (if keys_hasHeaders keys
            then length
                   (Set_of jsval_eq_dec
                      (map (fun row =>
                              getProp row
                                (labelColumnOf (keys_hasHeaders keys) keys))
                         data))
            else length data)
           (Set_of jsstring_eq_dec (map language results)).
Proof.
  unfold classify.
  destruct (Object_keys_of (nth_error data 0)) as [keys|e]; [|discriminate].
  cbn [bind]. cbv zeta.
  destruct (mapM_index _ (filter (hasText column) data) 0) as [rs|e] eqn:E;
    [|discriminate].
  cbn [bind]. intros H. injection H as <- <-.
  exists keys. repeat split. exact E.
Qed.

(** The pass throws on the empty table and on no other. *)
Lemma classify_Throw_iff (column : jsstring) (data : list obj) :
  classify langCodes franc column data = Throw TypeError <-> data = [].
Proof.
  split.
  - intros H. destruct data as [|first rest]; [reflexivity|].
    destruct (classify_Normal langCodes franc column (first :: rest))
      as (keys & results & _ & _ & Hcl); [discriminate|].
    rewrite Hcl in H. discriminate.
  - intros ->. reflexivity.
Qed.

(** The labels the callback of [map] gives: the label cell of each row
    with headers, the running number of the row among those mapped
    without. *)
Lemma mapM_toResult_labels (column : jsstring) (hasHeaders : bool)
  (labelColumn : jsstring) (kept : list obj) :
  forall start results,
    mapM_index (toResult langCodes franc column hasHeaders labelColumn)
      kept start = Normal results ->
    map label results
    = if hasHeaders
      then map (fun row => getProp row labelColumn) kept
      else map (fun n => VStr (lit "Row " ++ numberToString n))
             (seq (S start) (length kept)).
Proof.
  induction kept as [|row kept IH]; intros start results H; simpl in H.
  - injection H as <-. now destruct hasHeaders.
  - unfold toResult at 1 in H.
    destruct (getProp row column) as [|s|addr]; try discriminate.
    cbn [bind] in H.
    destruct (mapM_index _ kept (S start)) as [rs|e] eqn:E;
      [|discriminate].
    cbn [bind] in H. injection H as <-.
    cbn [map label]. rewrite (IH _ _ E).
    destruct hasHeaders; [reflexivity|].
    cbn [length seq map]. now rewrite Nat.add_1_r.
Qed.

(** X6.  After a completed pass the set of detected languages has no
    duplicate, holds exactly the languages of the results, so never more
    members than there are results, and is empty exactly when there is no
    result. *)
Theorem languages_statistic (column : jsstring) (data : list obj) :
  data <> [] ->
  exists results st,
    classify langCodes franc column data = Normal (results, st) /\
    NoDup (languages st) /\
    (forall name, In name (languages st) <->
                  exists r, In r results /\ language r = name) /\
    length (languages st) <= length results /\
    (languages st = [] <-> results = []).
Proof.
  intros Hne.
  destruct (classify_Normal langCodes franc column data Hne)
    as (keys & results & _ & _ & Hcl).
  eexists results, _. split; [exact Hcl|]. cbn [languages].
  split; [apply Set_of_NoDup|]. split; [|split].
  - intros name. rewrite Set_of_In, in_map_iff.
    split; intros (r & H1 & H2); exists r; split; assumption.
  - rewrite <- (length_map language results). apply Set_of_length_le.
  - rewrite Set_of_nil_iff. split; [|now intros ->].
    destruct results; [reflexivity | discriminate].
Qed.

(** X7.  After a completed pass the number of unique labels is at least 1
    and at most the number of rows. *)
Theorem labels_bounds (column : jsstring) (data : list obj) :
  data <> [] ->
  exists results st,
    classify langCodes franc column data = Normal (results, st) /\
    1 <= labels st /\ labels st <= rows st.
Proof.
  intros Hne.
  destruct (classify_Normal langCodes franc column data Hne)
    as (keys & results & _ & _ & Hcl).
  eexists results, _. split; [exact Hcl|]. cbn [labels rows].
  assert (Hlen : 1 <= length data).
  { destruct data; [congruence | simpl; lia]. }
  destruct (keys_hasHeaders keys); [|lia].
  set (values := map _ data).
  assert (Hv : length values = length data) by apply length_map.
  split.
  - destruct (Set_of jsval_eq_dec values) eqn:E; [|simpl; lia].
    apply Set_of_nil_iff in E. rewrite E in Hv. simpl in Hv. lia.
  - rewrite <- Hv. apply Set_of_length_le.
Qed.


(** X9.  Whatever the table holds, a code that is not the empty string
    never resolves to the empty string. *)
Theorem getLanguageName_not_empty (code : jsstring) :
  code <> [] -> getLanguageName langCodes code <> [].
Proof.
  intros Hcode. unfold getLanguageName, lookupOrCode.
  destruct (str_eqb code (lit "und")); [discriminate|].
  destruct (langCodes code) as [[|c name]|]; simpl;
    [exact Hcode | discriminate | exact Hcode].
Qed.

(* --------------------------------------------------------------- *)
(** *** The column handler, continued *)

(** X10.  [handleColumnSelect] ends with an uncaught error in one case
    only: a file is present and its parse completes with no record. *)
Theorem column_select_throws_iff (column : jsstring) (st : AppState) :
  snd (handleColumnSelect langCodes franc parseRecords column st)
  = Some TypeError
  <-> exists f, file st = Some f /\ parseRecords f = Complete [].
Proof.
  unfold handleColumnSelect.
  destruct (file st) as [f|].
  - destruct (parseRecords f) as [data|message] eqn:Hparse.
    + unfold columnComplete.
      destruct (classify langCodes franc column data)
        as [[results s]|[]] eqn:Hcl.
      * split; [discriminate|].
        intros (f' & Hf & Hp). injection Hf as <-.
        rewrite Hparse in Hp. injection Hp as ->. discriminate.
      * apply classify_Throw_iff in Hcl. subst data.
        split; [intros _; now exists f | reflexivity].
    + split; [discriminate|].
      intros (f' & Hf & Hp). injection Hf as <-. congruence.
  - split; [discriminate | intros (f & Hf & _); discriminate].
Qed.

(** [handleColumnSelect] writes the selection and neither the file nor the
    columns. *)
Lemma handleColumnSelect_frame (column : jsstring) (st : AppState) :
  selectedColumn
    (fst (handleColumnSelect langCodes franc parseRecords column st))
  = VStr column /\
  file (fst (handleColumnSelect langCodes franc parseRecords column st))
  = file st /\
  columns (fst (handleColumnSelect langCodes franc parseRecords column st))
  = columns st.
Proof.
  unfold handleColumnSelect.
  destruct (file st) as [f|] eqn:Hfile; [|repeat split; exact Hfile].
  destruct (parseRecords f) as [data|message];
    [|repeat split; exact Hfile].
  unfold columnComplete.
  destruct (classify langCodes franc column data) as [[results s]|e];
    repeat split; exact Hfile.
Qed.

(** X11.  Whatever happens to the parse, [handleColumnSelect] records the
    column as the selection, also when the parse fails or the callback
    throws, and leaves the file and the columns offered as they were. *)
Theorem column_select_frame (column : jsstring) (st : AppState) :
  selectedColumn
    (fst (handleColumnSelect langCodes franc parseRecords column st))
  = VStr column /\
  file (fst (handleColumnSelect langCodes franc parseRecords column st))
  = file st /\
  columns (fst (handleColumnSelect langCodes franc parseRecords column st))
  = columns st.
Proof. exact (handleColumnSelect_frame column st). Qed.

(** X12.  The last selection wins: selecting [column2] after [column1]
    leaves the state, and the error thrown if any, that selecting
    [column2] alone leaves; in particular selecting a column twice is
    selecting it once. *)
Theorem last_selection_wins (column1 column2 : jsstring) (st : AppState) :
  handleColumnSelect langCodes franc parseRecords column2
    (fst (handleColumnSelect langCodes franc parseRecords column1 st))
  = handleColumnSelect langCodes franc parseRecords column2 st.
Proof.
  unfold handleColumnSelect at 2.
  destruct (file st) as [f|] eqn:Hfile.
  - destruct (parseRecords f) as [data|message] eqn:Hparse.
    + destruct data as [|first rest].
      * unfold handleColumnSelect. cbn. rewrite Hfile, Hparse. reflexivity.
      * destruct (classify_Normal langCodes franc column1 (first :: rest))
          as (k1 & r1 & _ & _ & Hc1); [discriminate|].
        unfold columnComplete. rewrite Hc1.
        unfold handleColumnSelect. cbn [fst file setIsProcessing setStats
          setLanguageResults setError setSelectedColumn].
        rewrite Hfile, Hparse. unfold columnComplete.
        destruct (classify_Normal langCodes franc column2 (first :: rest))
          as (k2 & r2 & _ & _ & Hc2); [discriminate|].
        rewrite Hc2. reflexivity.
    + unfold handleColumnSelect. cbn. rewrite Hfile, Hparse. reflexivity.
  - unfold handleColumnSelect. cbn. rewrite Hfile. reflexivity.
Qed.

(* --------------------------------------------------------------- *)
(** *** The view after a pass *)

Lemma filter_nil_iff {A : Type} (p : A -> bool) (l : list A) :
  filter p l = [] <-> Forall (fun x => p x = false) l.
Proof.
  induction l as [|x l IH]; simpl.
  - split; [constructor | reflexivity].
  - destruct (p x) eqn:E.
    + split; [discriminate|]. intros H. inversion H; subst. congruence.
    + rewrite IH. split; [now constructor | now inversion 1].
Qed.

Lemma hasText_false_iff (column : jsstring) (row : obj) :
  hasText column row = false <-> NoTextCell column row.
Proof.
  rewrite NoTextCell_iff, <- hasText_iff.
  destruct (hasText column row); split; congruence.
Qed.

(** X13.  When the parser calls the error callback, the view shows the
    alert with the handler's message next to whatever results block was
    shown before: after a column selection on the file on record the
    processing indicator is off, and after the upload of any file, from
    any state, the column [select] is as it was. *)
Theorem parse_error_is_displayed (column : jsstring) (st : AppState)
  (f g : File) (message message' : jsstring) :
  (file st = Some f ->
   parseRecords f = ParseError message ->
   alert (render (fst (handleColumnSelect langCodes franc parseRecords
                         column st)))
   = Some (lit "Error processing CSV: " ++ message) /\
   processing (render (fst (handleColumnSelect langCodes franc parseRecords
                              column st))) = false /\
   resultsPanel (render (fst (handleColumnSelect langCodes franc
                                parseRecords column st)))
   = resultsPanel (render st)) /\
  (parseRows g = ParseError message' ->
   alert (render (handleFileUpload parseRows (Some g) st))
   = Some (lit "Error parsing CSV: " ++ message') /\
   resultsPanel (render (handleFileUpload parseRows (Some g) st))
   = resultsPanel (render st) /\
   columnSelect (render (handleFileUpload parseRows (Some g) st))
   = columnSelect (render st)).
Proof.
  split.
  - intros Hfile Hrecords. unfold handleColumnSelect.
    rewrite Hfile, Hrecords. repeat split.
  - intros Hrows. unfold handleFileUpload. rewrite Hrows. repeat split.
Qed.

(** X14.  When the column parse completes with at least one record, the
    view shows neither the processing indicator nor an alert, and it shows
    the results block, summary included, unless every record has a missing,
    empty or non-string selected cell; a block that is shown gives the
    number of records as its total and has between one entry and that many
    entries. *)
Theorem results_block_shown_iff_text (column : jsstring) (f : File)
  (data : list obj) (st : AppState) :
  file st = Some f ->
  parseRecords f = Complete data ->
  data <> [] ->
  processing (render (fst (handleColumnSelect langCodes franc parseRecords
                             column st))) = false /\
  alert (render (fst (handleColumnSelect langCodes franc parseRecords
                        column st))) = None /\
  (resultsPanel (render (fst (handleColumnSelect langCodes franc
                                parseRecords column st))) = None
   <-> Forall (NoTextCell column) data) /\
  (forall panel,
     resultsPanel (render (fst (handleColumnSelect langCodes franc
                                  parseRecords column st))) = Some panel ->
     totalRows panel = length data /\
     1 <= length (items panel) /\
     length (items panel) <= totalRows panel).
Proof.
  intros Hfile Hparse Hne.
  destruct (classify_Normal langCodes franc column data Hne)
    as (keys & results & _ & Hall & Hcl).
  apply Forall2_length_eq in Hall.
  unfold handleColumnSelect. rewrite Hfile, Hparse.
  unfold columnComplete. rewrite Hcl.
  unfold render. cbn [fst processing alert resultsPanel isProcessing error
    languageResults stats setIsProcessing setStats setLanguageResults
    setError setSelectedColumn rows labels languages].
  split; [reflexivity|]. split; [reflexivity|].
  destruct (0 <? length results) eqn:E.
  - apply Nat.ltb_lt in E. split.
    + split; [discriminate|]. intros Hno. exfalso.
      assert (Hnil : filter (hasText column) data = []).
      { apply filter_nil_iff. eapply Forall_impl; [|exact Hno].
        intros row. apply hasText_false_iff. }
      rewrite Hnil in Hall. simpl in Hall. lia.
    + intros panel Hp. injection Hp as <-.
      cbn [totalRows items]. rewrite length_map.
      split; [reflexivity|]. split; [lia|].
      rewrite <- Hall. apply filter_length_le.
  - apply Nat.ltb_ge in E. split; [|discriminate].
    split; [|reflexivity]. intros _.
    assert (Hnil : filter (hasText column) data = []).
    { destruct (filter (hasText column) data); [reflexivity|].
      simpl in Hall. lia. }
    apply filter_nil_iff in Hnil. eapply Forall_impl; [|exact Hnil].
    intros row. apply hasText_false_iff.
Qed.

(* --------------------------------------------------------------- *)
(** *** Invariants of the component *)

Lemma classify_stats (column : jsstring) (data : list obj)
  (results : list LanguageResult) (s : Stats) :
  classify langCodes franc column data = Normal (results, s) ->
  length results <= rows s /\
  labels s <= rows s /\
  languages s = Set_of jsstring_eq_dec (map language results).
Proof.
  intros Hcl.
  assert (Hne : data <> []).
  { intros ->. discriminate. }
  destruct (classify_Normal langCodes franc column data Hne)
    as (keys & results' & _ & Hall & Hcl').
  rewrite Hcl in Hcl'. injection Hcl' as <- ->. cbn [rows labels languages].
  apply Forall2_length_eq in Hall.
  split; [rewrite <- Hall; apply filter_length_le|].
  split; [|reflexivity].
  destruct (keys_hasHeaders keys); [|lia].
  etransitivity; [apply Set_of_length_le|]. now rewrite length_map.
Qed.

Lemma upload_file (f : File) (st : AppState) :
  file (handleFileUpload parseRows (Some f) st) = Some f.
Proof.
  unfold handleFileUpload.
  destruct (parseRows f) as [data|message]; [|reflexivity].
  unfold uploadComplete. destruct data as [|firstRow rest]; [reflexivity|].
  destruct (firstRow_hasHeaders firstRow); reflexivity.
Qed.

(** X15.  In every state the component can reach, a column [select] that
    is on screen comes with a file: the columns offered are never left
    without the file they were read from, so a selection always starts a
    parse. *)
Theorem picker_implies_file (st : AppState) :
  Reachable langCodes franc parseRows parseRecords st ->
  columns st <> [] ->
  exists f, file st = Some f.
Proof.
  induction 1 as [|e st Hreach IH Hen].
  - intros H. now contradiction H.
  - destruct e as [[f|]|column]; cbn [handle].
    + intros _. exists f. apply upload_file.
    + exact IH.
    + destruct (handleColumnSelect_frame column st) as (_ & -> & ->).
      exact IH.
Qed.


(** X17.  In every state the component can reach, the columns offered and
    the selection are strings, although the first row is taken as an array
    of strings without a check. *)
Theorem columns_are_strings (st : AppState) :
  Reachable langCodes franc parseRows parseRecords st ->
  Forall (fun column => isString column = true) (columns st) /\
  isString (selectedColumn st) = true.
Proof.
  induction 1 as [|e st Hreach IH Hen].
  - split; [constructor | reflexivity].
  - destruct e as [[f|]|column]; cbn [handle].
    + unfold handleFileUpload.
      destruct (parseRows f) as [data|message]; [|exact IH].
      unfold uploadComplete. destruct data as [|firstRow rest]; [exact IH|].
      destruct (firstRow_hasHeaders firstRow) eqn:Hh;
        cbn [columns selectedColumn setSelectedColumn setColumns].
      * apply firstRow_hasHeaders_iff in Hh.
        assert (Hs : Forall (fun cell => isString cell = true) firstRow).
        { eapply Forall_impl; [|exact Hh]. now intros cell (s & -> & _). }
        split.
        -- destruct firstRow as [|c0 cells]; [constructor|].
           now inversion Hs.
        -- destruct firstRow as [|c0 [|c1 cells]]; try reflexivity.
           inversion Hs as [|? ? _ H1]; subst.
           inversion H1 as [|? ? Hc1 _]; subst.
           cbn [nth]. unfold js_or. now destruct (truthy c1).
      * split; [|reflexivity].
        rewrite map_index_const. apply Forall_forall.
        intros c Hin. apply in_map_iff in Hin.
        now destruct Hin as (i & <- & _).
    + exact IH.
    + destruct (handleColumnSelect_frame column st) as (-> & _ & ->).
      split; [apply IH | reflexivity].
Qed.

End Coverage.

(* ================================================================= *)
(** ** The further statements at the sample inputs *)

Lemma uploadedState_Reachable :
  Reachable sampleLangCodes sampleFranc sampleParseRows sampleParseRecords
    uploadedState.
Proof.
  exact (Reachable_step sampleLangCodes sampleFranc sampleParseRows
           sampleParseRecords (Upload (Some sampleFile)) initialState
           (Reachable_init _ _ _ _) eq_refl).
Defined.

Lemma headerlessData_nonempty : headerlessData <> [].
Proof. discriminate. Defined.

Lemma noTextData_nonempty : noTextData <> [].
Proof. discriminate. Defined.

Lemma upload_header_schema_sample :
  columns (uploadComplete [headerRow] initialState) = [VStr (lit "text")] /\
  selectedColumn (uploadComplete [headerRow] initialState)
  = VStr (lit "text").
Proof.
  destruct (upload_header_schema headerRow [] initialState eq_refl)
    as (Hcols & _ & _ & Hsel).
  split; [exact Hcols|]. rewrite Hsel, Hcols. reflexivity.
Defined.

Lemma upload_headerless_schema_sample :
  length (columns (uploadComplete [headerlessRow] initialState)) = 3 /\
  NoDup (columns (uploadComplete [headerlessRow] initialState)).
Proof.
  destruct (upload_headerless_schema headerlessRow [] initialState eq_refl)
    as (Hlen & _ & Hnd & _).
  split; [exact Hlen | exact Hnd].
Defined.

Lemma upload_replaces_schema_sample :
  file (handleFileUpload sampleParseRows (Some sampleFile) shownState)
  = Some sampleFile /\
  columns (handleFileUpload sampleParseRows (Some sampleFile) shownState)
  = columns (handleFileUpload sampleParseRows (Some sampleFile) initialState).
Proof.
  destruct (upload_replaces_schema sampleParseRows sampleFile
              (arrayRows sampleTable) shownState initialState eq_refl)
    as (Hfile & _ & _ & Hdata).
  split; [exact Hfile|]. apply Hdata. discriminate.
Defined.

Lemma languages_statistic_sample :
  exists results st,
    classify sampleLangCodes sampleFranc (lit "text")
      (headerRecords sampleTable) = Normal (results, st) /\
    NoDup (languages st) /\
    length (languages st) <= length results.
Proof.
  destruct (languages_statistic sampleLangCodes sampleFranc (lit "text")
              (headerRecords sampleTable) sample_records_nonempty)
    as (results & st & Hcl & Hnd & _ & Hlen & _).
  exists results, st. split; [exact Hcl|]. split; [exact Hnd | exact Hlen].
Defined.

Lemma labels_bounds_sample :
  exists results st,
    classify sampleLangCodes sampleFranc (lit "text")
      (headerRecords sampleTable) = Normal (results, st) /\
    1 <= labels st /\ labels st <= rows st.
Proof.
  exact (labels_bounds sampleLangCodes sampleFranc (lit "text")
           (headerRecords sampleTable) sample_records_nonempty).
Defined.


Lemma getLanguageName_not_empty_sample :
  lit "deu" <> [] /\ getLanguageName sampleLangCodes (lit "deu") <> [].
Proof.
  assert (H : lit "deu" <> []) by discriminate.
  split; [exact H|].
  exact (getLanguageName_not_empty sampleLangCodes (lit "deu") H).
Defined.

Lemma parse_error_is_displayed_sample :
  alert (render (fst (handleColumnSelect sampleLangCodes sampleFranc
                        failingParseRecords (lit "text") shownState)))
  = Some (lit "Error processing CSV: unreadable") /\
  alert (render (handleFileUpload failingParseRows
                   (Some (mkFile (lit "other.csv") [])) initialState))
  = Some (lit "Error parsing CSV: unreadable").
Proof.
  destruct (parse_error_is_displayed sampleLangCodes sampleFranc
              failingParseRows failingParseRecords (lit "text") shownState
              sampleFile sampleFile (lit "unreadable") (lit "unreadable"))
    as (Hselect & _).
  destruct (parse_error_is_displayed sampleLangCodes sampleFranc
              failingParseRows failingParseRecords (lit "text") initialState
              sampleFile (mkFile (lit "other.csv") [])
              (lit "unreadable") (lit "unreadable"))
    as (_ & Hupload).
  destruct (Hselect eq_refl eq_refl) as (Ha & _).
  destruct (Hupload eq_refl) as (Hb & _).
  split; [exact Ha | exact Hb].
Defined.

Lemma results_block_shown_iff_text_sample :
  resultsPanel
    (render (fst (handleColumnSelect sampleLangCodes sampleFranc
                    (fun _ => Complete noTextData) (lit "text") shownState)))
  = None.
Proof.
  destruct (results_block_shown_iff_text sampleLangCodes sampleFranc
              (fun _ => Complete noTextData) (lit "text") sampleFile
              noTextData shownState eq_refl eq_refl noTextData_nonempty)
    as (_ & _ & Hnone & _).
  apply Hnone.
  apply Forall_cons; [right; left; reflexivity|].
  apply Forall_cons; [left; reflexivity | apply Forall_nil].
Defined.

Lemma picker_implies_file_sample :
  exists f, file uploadedState = Some f.
Proof.
  apply (picker_implies_file sampleLangCodes sampleFranc sampleParseRows
           sampleParseRecords uploadedState uploadedState_Reachable).
  discriminate.
Defined.


Lemma columns_are_strings_sample :
  Forall (fun column => isString column = true) (columns uploadedState) /\
  isString (selectedColumn uploadedState) = true.
Proof.
  exact (columns_are_strings sampleLangCodes sampleFranc sampleParseRows
           sampleParseRecords uploadedState uploadedState_Reachable).
Defined.

(* ================================================================= *)
(** ** The table as an object: what a code resolves to *)

Lemma memberAddr_None_iff (key : jsstring) (names : list jsstring)
  (addr : nat) :
  memberAddr key names addr = None <-> ~ In key names.
Proof.
  revert addr. induction names as [|n names IH]; intros addr; simpl.
  - tauto.
  - destruct (str_eqb n key) eqn:E.
    + apply str_eqb_true in E. split; [discriminate|].
      intros H. exfalso. apply H. now left.
    + apply str_eqb_false in E. rewrite IH. tauto.
Qed.

Lemma inheritedProp_not_inherited (key : jsstring) :
  ~ In key ObjectPrototype_keys -> inheritedProp key = VUndef.
Proof.
  intros H. unfold inheritedProp.
  now rewrite (proj2 (memberAddr_None_iff key ObjectPrototype_keys 0) H).
Qed.

Lemma inheritedProp_inherited (key : jsstring) :
  In key ObjectPrototype_keys -> exists addr, inheritedProp key = VRef addr.
Proof.
  intros H. unfold inheritedProp.
  destruct (memberAddr key ObjectPrototype_keys 0) as [addr|] eqn:E.
  - now exists addr.
  - apply memberAddr_None_iff in E. contradiction.
Qed.

(** Away from the inherited names, a table of names resolves a code as
    [getLanguageName] does over the names it gives. *)
Lemma getLanguageNameOn_names (table : obj) (code : jsstring) :
  NameTable table ->
  ~ In code ObjectPrototype_keys ->
  getLanguageNameOn table code
  = VStr (getLanguageName (tableNames table) code).
Proof.
  intros Htable Hcode.
  unfold getLanguageNameOn, getLanguageName, lookupOrCode, tableNames,
    readProp.
  destruct (str_eqb code (lit "und")); [reflexivity|].
  destruct (ownProperty table code) as [v|] eqn:E.
  - destruct (Htable code v E) as (name & -> & Hname).
    unfold js_or. destruct name; [congruence | reflexivity].
  - now rewrite inheritedProp_not_inherited.
Qed.


Lemma sampleTableObject_NameTable : NameTable sampleTableObject.
Proof.
  intros key v. unfold sampleTableObject. cbn [ownProperty].
  destruct (str_eqb (lit "eng") key).
  - intros H. injection H as <-. exists (lit "English").
    split; [reflexivity | discriminate].
  - destruct (str_eqb (lit "fra") key); [|discriminate].
    intros H. injection H as <-. exists (lit "French").
    split; [reflexivity | discriminate].
Defined.



(* ================================================================= *)
(** ** The label column and a numeric header name *)

(** C6, at the table [name,2020] / [x,p] / [y,p]: the upload offers the
    column [2020]; in the column pass the keys of the first record are
    listed as [2020], [name], so the label column is [2020], not the first
    column; the pass counts 1 unique label over 2 rows, while the first
    column holds 2 distinct values. *)
Theorem labels_count_numeric_header :
  columns (uploadComplete (arrayRows yearTable) initialState)
  = [VStr (lit "2020")] /\
  Object_keys_of (nth_error (headerRecords yearTable) 0)
  = Normal [lit "2020"; lit "name"] /\
  (exists results,
     classify sampleLangCodes sampleFranc (lit "2020")
       (headerRecords yearTable)
     = Normal (results, mkStats 2 1 [lit "Undetermined"])) /\
  length
    (Set_of jsval_eq_dec
       (map (fun row => nth 0 row VUndef) (skipn 1 (arrayRows yearTable))))
  = 2.
Proof.
  split; [reflexivity|]. split; [reflexivity|]. split; [|reflexivity].
  eexists. reflexivity.
Qed.

(* ================================================================= *)
(** ** A parse that ends with errors *)

